(** * Invoice relay: extraction adapter, renderer adapter, request orchestrator

    A shallow embedding of [main.py].  The three coroutines of the module
    ([extract_first_page], [process_invoice], [process_document]) are
    embedded as functions into an exception monad; the recognition
    service, the rendering library, [json.loads], [base64.b64encode],
    [str] of a date and the serialisation of the response are
    collaborators of the embedding, gathered in the class [Externals].
    Calls to [logger] are left out: they write to the log only.  The
    time the two adapters take on the event loop is embedded apart, as
    the moments a coroutine gives the loop back and is done. *)

From Stdlib Require Import PrimFloat.
From stdpp Require Import gmap strings list pretty.

Local Open Scope string_scope.

(** ** Python values and exceptions *)

Abbreviation bytes := (list Byte.byte).

(** Instances of [Exception], which is what the handlers of the module
    catch.  [PyError cls text] is an exception of the built-in or library
    class [cls] whose [str] is [text]; [HTTPException] is the framework's
    exception, built by the module itself with a status code and a
    detail. *)
Inductive exn_class :=
| ImportError
| TypeError
| AttributeError
| JSONDecodeError
| OtherException.

Inductive exn :=
| PyError (cls : exn_class) (text : string)
| HTTPException (status_code : nat) (detail : string).

Definition is_ImportError (e : exn) : bool :=
  match e with
  | PyError ImportError _ => true
  | _ => false
  end.

(** Outcome of running a block of Python code. *)
Inductive Result (A : Type) :=
| Return (a : A)
| Raise (e : exn).

Arguments Return {A} a.
Arguments Raise {A} e.

Definition bind {A B} (c : Result A) (k : A -> Result B) : Result B :=
  match c with
  | Return a => k a
  | Raise e => Raise e
  end.

Notation "'do' x <- c ;; k" := (bind c (fun x => k))
  (at level 10, x name, c at level 99, k at level 200,
   format "'[v' 'do'  x  <-  c  ;; '/' k ']'").

(** [try: body except Exception as e: handler e] *)
Definition try_except {A} (body : Result A) (handler : exn -> Result A) : Result A :=
  match body with
  | Return a => Return a
  | Raise e => handler e
  end.

(** [for x in l: s = body s x], stopping at the first exception. *)
Fixpoint for_each {A S} (l : list A) (body : S -> A -> Result S) (s : S) : Result S :=
  match l with
  | [] => Return s
  | x :: l' => do s' <- body s x ;; for_each l' body s'
  end.

(** An attribute of a Python object: missing, holding [None], or holding
    a value. *)
Inductive attr (A : Type) :=
| NoAttr
| AttrNone
| Attr (a : A).

Arguments NoAttr {A}.
Arguments AttrNone {A}.
Arguments Attr {A} a.

(** [text in body] on strings. *)
Fixpoint carries (text body : string) : bool :=
  String.prefix text body ||
  match body with
  | EmptyString => false
  | String _ rest => carries text rest
  end.

(** Values produced by [json.loads]. *)
#[local] Unset Elimination Schemes.
Inductive json :=
| JNull
| JBool (b : bool)
| JInt (n : Z)
| JFloat (x : float)
| JStr (s : string)
| JArr (items : list json)
| JObj (members : list (string * json)).
#[local] Set Elimination Schemes.

(** ** The recognition result *)

Record date := { year : nat; month : nat; day : nat }.

Record DocumentField := {
  value_string : attr string;
  value_date : attr date;
  content : attr string;
  confidence : attr float
}.

Record AnalyzedDocument := {
  fields : option (gmap string DocumentField)
}.

Record AnalyzeResult := {
  documents : attr (list AnalyzedDocument)
}.

Record LROPoller := {
  result : Result AnalyzeResult
}.

(** ** The rendering library *)

Record Matrix := { zoom_x : float; zoom_y : float }.

Record Pixmap := {
  width : nat;
  height : nat;
  tobytes : string -> Result bytes
}.

Record Page := {
  number : nat;
  get_pixmap : Matrix -> bool -> Result Pixmap
}.

Record PdfDocument := {
  len : nat;
  getitem : nat -> Result Page
}.

Record FitzModule := {
  fitz_open : bytes -> string -> Result PdfDocument
}.

(** ** The request and the response *)

Record UploadFile := {
  filename : string;
  read : Result bytes
}.

Record FieldResult := {
  value : option string;
  f_confidence : option float
}.

Record ResponseData := {
  r_filename : string;
  extracted_data : gmap string FieldResult;
  thumbnail : option string;
  metadata : json
}.

Record JSONResponse := {
  status_code : nat;
  response_content : ResponseData;
  headers : list (string * string)
}.

(** ** Collaborators *)

Class Externals := {
  (** [document_analysis_client.begin_analyze_document(model, document=...)] *)
  begin_analyze_document : string -> bytes -> Result LROPoller;
  (** [import fitz] *)
  import_fitz : Result FitzModule;
  (** [base64.b64encode(b).decode('utf-8')] *)
  b64encode : bytes -> string;
  (** [json.loads] *)
  json_loads : string -> Result json;
  (** [str] of a date value *)
  str_date : date -> string;
  (** The serialisation of the envelope that the constructor of
      [JSONResponse] runs on its content,
      [json.dumps(content, allow_nan=False, ...).encode("utf-8")], given the
      file name, the extracted data and the metadata.  It raises on what
      JSON cannot hold, such as a float that is not finite; the thumbnail,
      None or base64 text, always serialises and fills the body in. *)
  render : string -> gmap string FieldResult -> json -> Result (option string -> bytes)
}.

(** [str] of an [HTTPException]: the framework's [__str__],
    [f"{self.status_code}: {self.detail}"]. *)
Definition str_HTTPException (status : nat) (detail : string) : string :=
  pretty status ++ ": " ++ detail.

Section Relay.

Context `{Ext : Externals}.

(** [str(e)] *)
Definition str_exn (e : exn) : string :=
  match e with
  | PyError _ text => text
  | HTTPException status detail => str_HTTPException status detail
  end.

(** ** [extract_first_page] *)

Definition zoom_factor : float := 2%float.

(** The [try] block of [_extract]. *)
Definition _extract_try (file_content : bytes) : Result (option string) :=
  do fitz <- import_fitz ;;
  do pdf <- fitz_open fitz file_content "pdf" ;;
  if Nat.eqb (len pdf) 0 then Return None
  else
    do page <- getitem pdf 0 ;;
    let mat := {| zoom_x := zoom_factor; zoom_y := zoom_factor |} in
    do pix <- get_pixmap page mat false ;;
    do img_bytes <- tobytes pix "png" ;;
    let thumbnail := b64encode img_bytes in
    Return (Some thumbnail).

(** The two handlers, [except ImportError] and [except Exception], log
    and return None. *)
Definition _extract (file_content : bytes) : Result (option string) :=
  try_except (_extract_try file_content)
    (fun e => if is_ImportError e then Return None else Return None).

(** [await loop.run_in_executor(executor, f)]: the outcome of [f]. *)
Definition run_in_executor {A} (f : Result A) : Result A := f.

Definition extract_first_page (file_content : bytes) : Result (option string) :=
  run_in_executor (_extract file_content).

(** ** [process_invoice] *)

Definition field_mapping : list (string * string) :=
  [ ("InvoiceId", "PV Number");
    ("InvoiceDate", "Date Prepared");
    ("RemittanceAddressRecipient", "Supplier or Company") ].

(** The [if]/[elif] chain that picks the value of a field. *)
Definition field_value (field : DocumentField) : option string :=
  match value_string field with
  | Attr s => Some s
  | _ =>
    match value_date field with
    | Attr d => Some (str_date d)
    | _ =>
      match content field with
      | Attr c => Some c
      | _ => None
      end
    end
  end.

(** [field.confidence] *)
Definition get_confidence (field : DocumentField) : Result (option float) :=
  match confidence field with
  | NoAttr =>
    Raise (PyError AttributeError "'DocumentField' object has no attribute 'confidence'")
  | AttrNone => Return None
  | Attr c => Return (Some c)
  end.

(** Body of the loop over [field_mapping.items()]. *)
Definition process_field (flds : gmap string DocumentField)
    (document_data : gmap string FieldResult) (item : string * string)
    : Result (gmap string FieldResult) :=
  let '(api_field, display_field) := item in
  match flds !! api_field with
  | Some field =>
    let v := field_value field in
    do c <- get_confidence field ;;
    Return (<[display_field := {| value := v; f_confidence := c |}]> document_data)
  | None => Return document_data
  end.

(** Body of the loop over [result.documents]. *)
Definition process_fields (document_data : gmap string FieldResult)
    (document : AnalyzedDocument) : Result (gmap string FieldResult) :=
  match fields document with
  | None => Raise (PyError TypeError "'NoneType' object is not iterable")
  | Some flds => for_each field_mapping (process_field flds) document_data
  end.

Definition default_data : gmap string FieldResult :=
  <["Date Prepared" := {| value := None; f_confidence := Some 0%float |}]>
  (<["Supplier or Company" := {| value := None; f_confidence := Some 0%float |}]>
  (<["PV Number" := {| value := None; f_confidence := Some 0%float |}]>
  (<["Document Type" := {| value := Some "Payable Voucher"; f_confidence := Some 1%float |}]>
   ∅))).

(** The recognition call: [begin_analyze_document] then [poller.result()]. *)
Definition analyze (file_content : bytes) : Result AnalyzeResult :=
  do poller <- begin_analyze_document "prebuilt-invoice" file_content ;;
  result poller.

(** What follows the recognition call in the [try] block. *)
Definition remap (res : AnalyzeResult) : Result (gmap string FieldResult) :=
  let document_data := default_data in
  match documents res with
  | Attr (document :: rest) =>
    for_each (document :: rest) process_fields document_data
  | _ => Return document_data
  end.

Definition process_invoice (file_content : bytes) (fname : string)
    : Result (gmap string FieldResult) :=
  try_except
    (do res <- analyze file_content ;; remap res)
    (fun e => Raise (HTTPException 500 (str_exn e))).

(** ** [process_document] *)

(** [await asyncio.gather(a, b)]: both results, or the exception of the
    first awaitable that raised.  [extract_first_page] raises nothing
    ([extract_first_page_total] below), so the only exception [gather]
    passes on in [process_document] is the one of [process_invoice]. *)
Definition gather {A B} (a : Result A) (b : Result B) : Result (A * B) :=
  do x <- a ;; do y <- b ;; Return (x, y).

Definition response_headers : list (string * string) :=
  [ ("Access-Control-Allow-Origin", "*");
    ("Access-Control-Allow-Methods", "POST, OPTIONS");
    ("Access-Control-Allow-Headers", "*") ].

(** [JSONResponse(content=..., headers=...)]: the constructor serialises
    the content, and raises when that fails; the status code is the
    framework's default. *)
Definition mk_JSONResponse (c : ResponseData) (h : list (string * string))
    : Result JSONResponse :=
  do body <- render (r_filename c) (extracted_data c) (metadata c) ;;
  Return {| status_code := 200; response_content := c; headers := h |}.

Definition process_document (file : UploadFile) (metadata_str : string) (token : string)
    : Result JSONResponse :=
  try_except
    (do file_content <- read file ;;
     do metadata_dict <- json_loads metadata_str ;;
     let extracted_data_task := process_invoice file_content (filename file) in
     let thumbnail_task := extract_first_page file_content in
     do r <- gather extracted_data_task thumbnail_task ;;
     let response_data :=
       {| r_filename := filename file;
          extracted_data := fst r;
          thumbnail := snd r;
          metadata := metadata_dict |} in
     mk_JSONResponse response_data response_headers)
    (fun e => Raise (HTTPException 500 (str_exn e))).

(** What the client sees: the status code, the [detail] of the error
    body, and the envelope. *)
Definition http_status (r : Result JSONResponse) : nat :=
  match r with
  | Return resp => status_code resp
  | Raise (HTTPException status _) => status
  | Raise (PyError _ _) => 500
  end.

Definition error_detail (r : Result JSONResponse) : option string :=
  match r with
  | Raise (HTTPException _ detail) => Some detail
  | _ => None
  end.

Definition envelope (r : Result JSONResponse) : option ResponseData :=
  match r with
  | Return resp => Some (response_content resp)
  | Raise _ => None
  end.

End Relay.

(** ** Vocabulary of the properties *)

(** The four display names of the output schema. *)
Definition output_keys : gset string :=
  {[ "Document Type"; "PV Number"; "Supplier or Company"; "Date Prepared" ]}.

(** [hasattr(o, a) and o.a is not None] *)
Definition present {A} (a : attr A) : bool :=
  match a with
  | Attr _ => true
  | _ => false
  end.

(** The documents the loop of [process_invoice] visits. *)
Definition visited (res : AnalyzeResult) : list AnalyzedDocument :=
  match documents res with
  | Attr docs => docs
  | _ => []
  end.

(** The document has no source field [api_field]. *)
Definition lacks (api_field : string) (document : AnalyzedDocument) : bool :=
  match fields document with
  | Some flds =>
    match flds !! api_field with
    | Some _ => false
    | None => true
    end
  | None => true
  end.

(** Results on which the remap raises nothing: every visited document
    has a field dictionary, and every mapped field in it has a
    [confidence] attribute. *)
Definition well_shaped_document (document : AnalyzedDocument) : bool :=
  match fields document with
  | None => false
  | Some flds =>
    forallb
      (fun item : string * string =>
         match flds !! fst item with
         | Some field => match confidence field with NoAttr => false | _ => true end
         | None => true
         end)
      field_mapping
  end.

Definition well_shaped (res : AnalyzeResult) : bool :=
  forallb well_shaped_document (visited res).

(** ** Test doubles for the collaborators *)

Module Mock.

Definition two_digits (n : nat) : string :=
  if Nat.ltb n 10 then "0" ++ pretty n else pretty n.

Definition iso_date (d : date) : string :=
  pretty (year d) ++ "-" ++ two_digits (month d) ++ "-" ++ two_digits (day d).

Definition loads (s : string) : Result json :=
  if String.eqb s "{}" then Return (JObj [])
  else if String.eqb s "NaN" then Return (JFloat nan)
  else if String.eqb s "[7, null]" then Return (JArr [JInt 7; JNull])
  else Raise (PyError JSONDecodeError "Expecting value: line 1 column 1 (char 0)").

Definition finite (x : float) : bool := negb (is_nan x || is_infinity x).

Fixpoint json_finite (j : json) : bool :=
  match j with
  | JFloat x => finite x
  | JArr items => forallb json_finite items
  | JObj members => forallb (fun kv => match kv with (_, v) => json_finite v end) members
  | _ => true
  end.

Definition confidences_finite (data : gmap string FieldResult) : bool :=
  forallb
    (fun kv : string * FieldResult =>
       match f_confidence (snd kv) with
       | Some c => finite c
       | None => true
       end)
    (map_to_list data).

(** A serialiser that refuses floats that are not finite. *)
Definition dumps (fname : string) (data : gmap string FieldResult) (m : json)
    : Result (option string -> bytes) :=
  if json_finite m && confidences_finite data
  then Return (fun _ => [Byte.x7b; Byte.x7d])
  else Raise (PyError OtherException "Out of range float values are not JSON compliant").

Definition externals (recognition : Result LROPoller) (fitz : Result FitzModule)
    : Externals :=
  {| begin_analyze_document := fun _ _ => recognition;
     import_fitz := fitz;
     b64encode := fun _ => "iVBORw0KGgo=";
     json_loads := loads;
     str_date := iso_date;
     render := dumps |}.

Definition returns (res : AnalyzeResult) : Result LROPoller :=
  Return {| result := Return res |}.

Definition invoice_id : DocumentField :=
  {| value_string := Attr "PV-0042";
     value_date := Attr {| year := 2024; month := 3; day := 9 |};
     content := Attr "PV-0042 ";
     confidence := Attr 0.875%float |}.

Definition invoice_date : DocumentField :=
  {| value_string := AttrNone;
     value_date := Attr {| year := 2024; month := 3; day := 9 |};
     content := Attr "9 March 2024";
     confidence := Attr 0.75%float |}.

Definition recipient : DocumentField :=
  {| value_string := NoAttr;
     value_date := NoAttr;
     content := Attr "Acme Ltd";
     confidence := Attr 0.5%float |}.

Definition later_id : DocumentField :=
  {| value_string := NoAttr;
     value_date := NoAttr;
     content := AttrNone;
     confidence := AttrNone |}.

Definition first_doc : AnalyzedDocument :=
  {| fields := Some (<["InvoiceId" := invoice_id]>
                     (<["InvoiceDate" := invoice_date]>
                      (<["VendorName" := recipient]> ∅))) |}.

Definition second_doc : AnalyzedDocument :=
  {| fields := Some (<["InvoiceId" := later_id]> ∅) |}.

Definition third_doc : AnalyzedDocument :=
  {| fields := Some (<["RemittanceAddressRecipient" := recipient]> ∅) |}.

Definition one_document : AnalyzeResult :=
  {| documents := Attr [first_doc] |}.

Definition three_documents : AnalyzeResult :=
  {| documents := Attr [first_doc; second_doc; third_doc] |}.

Definition no_documents : AnalyzeResult :=
  {| documents := AttrNone |}.

Definition pixmap : Pixmap :=
  {| width := 1190; height := 1684;
     tobytes := fun _ => Return [Byte.x89; Byte.x50; Byte.x4e; Byte.x47] |}.

Definition page : Page :=
  {| number := 0; get_pixmap := fun _ _ => Return pixmap |}.

Definition one_page : FitzModule :=
  {| fitz_open := fun _ _ =>
       Return {| len := 1; getitem := fun _ => Return page |} |}.

Definition zero_pages : FitzModule :=
  {| fitz_open := fun _ _ =>
       Return {| len := 0;
                 getitem := fun _ => Raise (PyError OtherException "page not in document") |} |}.

Definition corrupt : FitzModule :=
  {| fitz_open := fun _ _ => Raise (PyError OtherException "Failed to open stream") |}.

Definition not_installed : Result FitzModule :=
  Raise (PyError ImportError "No module named 'fitz'").

Definition pdf_bytes : bytes := [Byte.x25; Byte.x50; Byte.x44; Byte.x46].

Definition upload : UploadFile :=
  {| filename := "voucher.pdf"; read := Return pdf_bytes |}.

Definition service_down : Result LROPoller :=
  Raise (PyError OtherException "(401) Access denied due to invalid subscription key").

(** The service answers with one document, the page renders. *)
Definition single : Externals :=
  externals (returns one_document) (Return one_page).

(** The service answers with three documents. *)
Definition several : Externals :=
  externals (returns three_documents) (Return one_page).

(** The upload opens as a document without pages. *)
Definition blank_pdf : Externals :=
  externals (returns one_document) (Return zero_pages).

(** The recognition call fails. *)
Definition outage : Externals :=
  externals service_down (Return one_page).

End Mock.

(** ** Vocabulary of the further properties *)

(** The field under [api_field] in the last document that has one. *)
Fixpoint last_field (api_field : string) (docs : list AnalyzedDocument)
    : option DocumentField :=
  match docs with
  | [] => None
  | document :: rest =>
    match last_field api_field rest with
    | Some field => Some field
    | None =>
      match fields document with
      | Some flds => flds !! api_field
      | None => None
      end
    end
  end.

(** What [process_invoice] reads of a document: its three mapped source
    fields, in the order of [field_mapping]. *)
Definition mapped_view (document : AnalyzedDocument)
    : option (list (option DocumentField)) :=
  match fields document with
  | Some flds => Some (map (fun item : string * string => flds !! fst item) field_mapping)
  | None => None
  end.

(** The same collaborators with another rendering library and another
    base64 encoder. *)
Definition with_renderer (E : Externals) (fitz : Result FitzModule)
    (encode : bytes -> string) : Externals :=
  {| begin_analyze_document := @begin_analyze_document E;
     import_fitz := fitz;
     b64encode := encode;
     json_loads := @json_loads E;
     str_date := @str_date E;
     render := @render E |}.

Section ClosedForm.

Context `{Ext : Externals}.

(** The output pair built from a source field that has a [confidence]
    attribute. *)
Definition entry_of (field : DocumentField) : FieldResult :=
  {| value := field_value field;
     f_confidence := match confidence field with Attr c => Some c | _ => None end |}.

Definition entry_for (api_field : string) (docs : list AnalyzedDocument) : FieldResult :=
  match last_field api_field docs with
  | Some field => entry_of field
  | None => {| value := None; f_confidence := Some 0%float |}
  end.

(** The mapping [process_invoice] returns on the documents [docs], written
    without the loops. *)
Definition remapped (docs : list AnalyzedDocument) : gmap string FieldResult :=
  <["Date Prepared" := entry_for "InvoiceDate" docs]>
  (<["Supplier or Company" := entry_for "RemittanceAddressRecipient" docs]>
  (<["PV Number" := entry_for "InvoiceId" docs]>
  (<["Document Type" := {| value := Some "Payable Voucher"; f_confidence := Some 1%float |}]>
   ∅))).

(** The thumbnail [extract_first_page] hands to the orchestrator. *)
Definition rendered (file_content : bytes) : option string :=
  match _extract_try file_content with
  | Return t => t
  | Raise _ => None
  end.

End ClosedForm.

(** ** Module start-up: the environment check and the client *)

Module Startup.

Definition required_env_vars : list string := ["AZURE_ENDPOINT"; "AZURE_KEY"].

(** [os.getenv(var)], on the environment left by [load_dotenv()]. *)
Definition getenv (environ : gmap string string) (var : string) : option string :=
  environ !! var.

(** Truth value of an [os.getenv] result: None and the empty string are
    false. *)
Definition truthy (v : option string) : bool :=
  match v with
  | Some (String _ _) => true
  | _ => false
  end.

Definition missing_vars (environ : gmap string string) : list string :=
  List.filter (fun var => negb (truthy (getenv environ var))) required_env_vars.

(** How the import of the module ends: with the client in place, with the
    [ValueError] of the environment check, or with the exception of the
    client constructor, which the handler logs and raises again. *)
Inductive outcome (C : Type) :=
| Started (client : C)
| ValueError (text : string)
| InitFailed (e : exn).

Arguments Started {C} client.
Arguments ValueError {C} text.
Arguments InitFailed {C} e.

(** [make_client endpoint key] stands for
    [DocumentAnalysisClient(endpoint=endpoint, credential=AzureKeyCredential(key))]. *)
Definition startup {C} (environ : gmap string string)
    (make_client : option string -> option string -> Result C) : outcome C :=
  match missing_vars environ with
  | _ :: _ =>
    ValueError ("Missing required environment variables: "
                ++ String.concat ", " (missing_vars environ))
  | [] =>
    match make_client (getenv environ "AZURE_ENDPOINT") (getenv environ "AZURE_KEY") with
    | Return client => Started client
    | Raise e => InitFailed e
    end
  end.

End Startup.

(** ** Further test doubles *)

Module Doubles.

Definition shapeless : AnalyzeResult :=
  {| documents := Attr [Mock.first_doc; {| fields := None |}] |}.

(** The second document has no field dictionary. *)
Definition shapeless_service : Externals :=
  Mock.externals (Mock.returns shapeless) (Return Mock.one_page).

(** [first_doc] without its unmapped field. *)
Definition trimmed_doc : AnalyzedDocument :=
  {| fields := Some (<["InvoiceId" := Mock.invoice_id]>
                     (<["InvoiceDate" := Mock.invoice_date]> ∅)) |}.

Definition trimmed : AnalyzeResult := {| documents := Attr [trimmed_doc] |}.

(** The service answers [one_document] for the upload and [trimmed] for
    any other content. *)
Definition two_answers : Externals :=
  {| begin_analyze_document := fun _ file_content =>
       match file_content with
       | [] => Mock.returns trimmed
       | _ => Mock.returns Mock.one_document
       end;
     import_fitz := Return Mock.one_page;
     b64encode := fun _ => "iVBORw0KGgo=";
     json_loads := Mock.loads;
     str_date := Mock.iso_date;
     render := Mock.dumps |}.

(** A document with a field dictionary but none of the mapped fields. *)
Definition cover_sheet : AnalyzedDocument :=
  {| fields := Some (<["VendorName" := Mock.recipient]> ∅) |}.

Definition with_cover_sheet : AnalyzeResult :=
  {| documents := Attr [Mock.first_doc; cover_sheet; Mock.second_doc] |}.

Definition without_cover_sheet : AnalyzeResult :=
  {| documents := Attr [Mock.first_doc; Mock.second_doc] |}.

(** The service answers [with_cover_sheet] for the upload and
    [without_cover_sheet] for any other content. *)
Definition cover_sheet_service : Externals :=
  {| begin_analyze_document := fun _ file_content =>
       match file_content with
       | [] => Mock.returns without_cover_sheet
       | _ => Mock.returns with_cover_sheet
       end;
     import_fitz := Return Mock.one_page;
     b64encode := fun _ => "iVBORw0KGgo=";
     json_loads := Mock.loads;
     str_date := Mock.iso_date;
     render := Mock.dumps |}.

(** The service reports an infinite confidence. *)
Definition overconfident : Externals :=
  Mock.externals
    (Mock.returns
       {| documents :=
            Attr [ {| fields :=
                        Some (<["InvoiceId" :=
                                  {| value_string := Attr "PV-0042";
                                     value_date := NoAttr;
                                     content := NoAttr;
                                     confidence := Attr infinity |}]> ∅) |} ] |})
    (Return Mock.one_page).

Definition unreadable : UploadFile :=
  {| filename := "voucher.pdf";
     read := Raise (PyError OtherException "client disconnected") |}.

Definition environ : gmap string string :=
  <["AZURE_ENDPOINT" := "https://example.cognitiveservices.azure.com/"]>
  (<["AZURE_KEY" := "0123456789abcdef"]> ∅).

(** A client is the pair it was built from. *)
Definition make_client (endpoint key : option string) : Result (option string * option string) :=
  Return (endpoint, key).

End Doubles.

(** ** Time on the event loop *)

(** When a coroutine that starts at a given time first gives the event
    loop back, and when its result is there.  Durations are counted in
    units of any size. *)
Record timing := { yields_at : nat; done_at : nat }.

(** A coroutine body without an [await]: it holds the loop until it is
    done. *)
Definition blocking (duration : nat) (now : nat) : timing :=
  {| yields_at := now + duration; done_at := now + duration |}.

(** [await loop.run_in_executor(executor, job)]: the job goes to a worker
    thread at once, and the loop is free until the job is done. *)
Definition offloaded (duration : nat) (now : nat) : timing :=
  {| yields_at := now; done_at := now + duration |}.

(** [await asyncio.gather(a, b)]: the loop starts the tasks in the order
    of the arguments, the second one when the first gives the loop back;
    a result is taken in when it is there and the loop is free. *)
Definition gather_timing (a b : nat -> timing) (now : nat) : timing :=
  let ta := a now in
  let tb := b (yields_at ta) in
  {| yields_at := yields_at tb;
     done_at := Nat.max (Nat.max (done_at ta) (yields_at tb)) (done_at tb) |}.

(** [process_invoice] is an [async def] whose body has no [await]:
    [begin_analyze_document] and [poller.result()] are calls of the
    synchronous client. *)
Definition process_invoice_timing (recognition : nat) : nat -> timing :=
  blocking recognition.

(** [extract_first_page] awaits [_extract] in the executor. *)
Definition extract_first_page_timing (rendering : nat) : nat -> timing :=
  offloaded rendering.

(** Time from the dispatch in [process_document] to the end of the join,
    for a recognition and a rendering of the given durations. *)
Definition join_latency (recognition rendering : nat) : nat :=
  done_at (gather_timing (process_invoice_timing recognition)
             (extract_first_page_timing rendering) 0).

(** * Properties *)

(** ** The exception monad *)

Lemma bind_Return {A B} (c : Result A) (k : A -> Result B) (b : B) :
  bind c k = Return b → ∃ a, c = Return a ∧ k a = Return b.
Proof. destruct c as [a|e]; simpl; [eauto | discriminate]. Qed.

Lemma try_except_Return {A} (body : Result A) (h : exn -> Result A) (a : A) :
  (∀ e, h e ≠ Return a) → try_except body h = Return a → body = Return a.
Proof. intros Hh. destruct body as [a'|e]; simpl; [done | intros H; by apply Hh in H]. Qed.

Lemma for_each_app {A S} (l1 l2 : list A) (body : S -> A -> Result S) (s : S) :
  for_each (l1 ++ l2) body s = bind (for_each l1 body s) (for_each l2 body).
Proof.
  revert s. induction l1 as [|x l1 IH]; intros s; simpl; [done|].
  destruct (body s x) as [s'|e]; simpl; [apply IH | done].
Qed.

Lemma carries_prefix (text body : string) :
  String.prefix text body = true → carries text body = true.
Proof. intros H. destruct body; simpl in *; rewrite H; done. Qed.

Lemma carries_refl (text : string) : carries text text = true.
Proof.
  apply carries_prefix. induction text as [|a t IH]; simpl; [done|].
  destruct (Ascii.ascii_dec a a); [exact IH | done].
Qed.

Section Properties.

Context `{Ext : Externals}.

(** ** One document *)

Ltac step_field H :=
  match type of H with
  | context [?m !! ?k] => destruct (m !! k) as [?fld|] eqn:?; simpl in H
  end;
  try match type of H with
  | context [get_confidence ?f] =>
    destruct (get_confidence f) as [?c|?] eqn:?; simpl in H; [|discriminate H]
  end.

(** After the inner loop, the entry of a mapped display name is the one
    built from the document's source field, or is untouched when the
    document has no such field. *)
Lemma process_fields_mapped data document data' api display :
  process_fields data document = Return data' →
  (api, display) ∈ field_mapping →
  ∃ flds, fields document = Some flds ∧
    match flds !! api with
    | Some field =>
      ∃ c, get_confidence field = Return c ∧
           data' !! display = Some {| value := field_value field; f_confidence := c |}
    | None => data' !! display = data !! display
    end.
Proof.
  unfold process_fields. destruct (fields document) as [flds|]; [|discriminate].
  intros Hrun Hin. exists flds. split; [done|].
  unfold field_mapping in Hrun, Hin. simpl in Hrun. unfold process_field in Hrun.
  do 3 step_field Hrun; injection Hrun as <-;
    repeat (apply elem_of_cons in Hin as [Hin|Hin]; [injection Hin as -> ->|]);
    try (by apply elem_of_nil in Hin);
    repeat match goal with H : ?m !! ?k = _ |- context [?m !! ?k] => rewrite H end;
    simplify_map_eq; eauto.
Qed.

(** Entries under other names are untouched. *)
Lemma process_fields_other data document data' k :
  process_fields data document = Return data' →
  k ∉ field_mapping.*2 →
  data' !! k = data !! k.
Proof.
  unfold process_fields. destruct (fields document) as [flds|]; [|discriminate].
  intros Hrun Hk. unfold field_mapping in Hrun, Hk. simpl in Hrun, Hk.
  unfold process_field in Hrun.
  do 3 step_field Hrun; injection Hrun as <-;
    repeat (rewrite lookup_insert_ne; [|intros <-; apply Hk; set_solver]); done.
Qed.

Lemma process_fields_dom data document data' :
  process_fields data document = Return data' →
  dom data = output_keys → dom data' = output_keys.
Proof.
  unfold process_fields. destruct (fields document) as [flds|]; [|discriminate].
  intros Hrun Hdom. unfold field_mapping in Hrun. simpl in Hrun.
  unfold process_field in Hrun.
  do 3 step_field Hrun; injection Hrun as <-;
    rewrite ?dom_insert_L, Hdom; unfold output_keys; set_solver.
Qed.

Lemma process_fields_returns data document :
  well_shaped_document document = true → ∃ data', process_fields data document = Return data'.
Proof.
  unfold well_shaped_document, process_fields.
  destruct (fields document) as [flds|]; [|discriminate].
  unfold field_mapping. simpl. unfold process_field, get_confidence.
  intros H.
  repeat match goal with
  | |- context [flds !! ?k] =>
    destruct (flds !! k) as [?fld|]; simpl in *
  | |- context [confidence ?f] =>
    destruct (confidence f); simpl in *; try discriminate
  end; eauto.
Qed.

(** ** The loop over the documents *)

Lemma documents_dom docs data data' :
  for_each docs process_fields data = Return data' →
  dom data = output_keys → dom data' = output_keys.
Proof.
  revert data. induction docs as [|d docs IH]; intros data Hrun Hdom; simpl in Hrun.
  - by injection Hrun as <-.
  - apply bind_Return in Hrun as (mid & Hd & Hrest).
    eapply IH; [exact Hrest|]. by eapply process_fields_dom.
Qed.

Lemma documents_other docs data data' k :
  for_each docs process_fields data = Return data' →
  k ∉ field_mapping.*2 →
  data' !! k = data !! k.
Proof.
  revert data. induction docs as [|d docs IH]; intros data Hrun Hk; simpl in Hrun.
  - by injection Hrun as <-.
  - apply bind_Return in Hrun as (mid & Hd & Hrest).
    rewrite (IH _ Hrest Hk). by eapply process_fields_other.
Qed.

(** Documents that lack a source field leave its display entry alone. *)
Lemma documents_lacking docs data data' api display :
  for_each docs process_fields data = Return data' →
  (api, display) ∈ field_mapping →
  forallb (lacks api) docs = true →
  data' !! display = data !! display.
Proof.
  revert data. induction docs as [|d docs IH]; intros data Hrun Hin Hlack; simpl in *.
  - by injection Hrun as <-.
  - apply bind_Return in Hrun as (mid & Hd & Hrest).
    apply andb_prop in Hlack as [Hd_lacks Hdocs].
    rewrite (IH _ Hrest Hin Hdocs).
    destruct (process_fields_mapped _ _ _ _ _ Hd Hin) as (flds & Hflds & Hent).
    unfold lacks in Hd_lacks. rewrite Hflds in Hd_lacks.
    by destruct (flds !! api).
Qed.

(** The last document that has a source field decides its display entry. *)
Lemma documents_last pre document post data data' api display flds field :
  for_each (pre ++ document :: post) process_fields data = Return data' →
  (api, display) ∈ field_mapping →
  fields document = Some flds →
  flds !! api = Some field →
  forallb (lacks api) post = true →
  ∃ c, get_confidence field = Return c ∧
       data' !! display = Some {| value := field_value field; f_confidence := c |}.
Proof.
  intros Hrun Hin Hflds Hfield Hpost.
  rewrite for_each_app in Hrun. apply bind_Return in Hrun as (mid & _ & Hrun).
  simpl in Hrun. apply bind_Return in Hrun as (mid' & Hd & Hrest).
  destruct (process_fields_mapped _ _ _ _ _ Hd Hin) as (flds' & Hflds' & Hent).
  rewrite Hflds in Hflds'. injection Hflds' as <-. rewrite Hfield in Hent.
  destruct Hent as (c & Hc & Hent). exists c. split; [done|].
  by rewrite (documents_lacking _ _ _ _ _ Hrest Hin Hpost).
Qed.

Lemma documents_return docs data :
  forallb well_shaped_document docs = true →
  ∃ data', for_each docs process_fields data = Return data'.
Proof.
  revert data. induction docs as [|d docs IH]; intros data Hws; simpl in *; [eauto|].
  apply andb_prop in Hws as [Hd Hdocs].
  destruct (process_fields_returns data d Hd) as (mid & ->). simpl. by apply IH.
Qed.

(** ** [process_invoice] *)

Lemma remap_visited res :
  remap res = for_each (visited res) process_fields default_data.
Proof. unfold remap, visited. by destruct (documents res) as [| |[|d docs]]. Qed.

Lemma default_data_dom : dom default_data = output_keys.
Proof. unfold default_data, output_keys. rewrite !dom_insert_L. set_solver. Qed.

Lemma process_invoice_Return file_content fname data :
  process_invoice file_content fname = Return data →
  ∃ res, analyze file_content = Return res ∧
         for_each (visited res) process_fields default_data = Return data.
Proof.
  unfold process_invoice. intros H. apply try_except_Return in H; [|done].
  apply bind_Return in H as (res & Hres & Hremap).
  exists res. by rewrite <- remap_visited.
Qed.

Lemma process_invoice_analyzed file_content fname res :
  analyze file_content = Return res →
  process_invoice file_content fname =
  try_except (for_each (visited res) process_fields default_data)
    (fun e => Raise (HTTPException 500 (str_exn e))).
Proof. unfold process_invoice. intros ->. simpl. by rewrite remap_visited. Qed.

Lemma process_invoice_returns file_content fname res :
  analyze file_content = Return res →
  well_shaped res = true →
  ∃ data, process_invoice file_content fname = Return data.
Proof.
  intros Hres Hws. rewrite (process_invoice_analyzed _ _ _ Hres).
  destruct (documents_return _ default_data Hws) as (data & ->). by exists data.
Qed.

Lemma process_invoice_keys file_content fname data :
  process_invoice file_content fname = Return data → dom data = output_keys.
Proof.
  intros H. apply process_invoice_Return in H as (res & _ & Hrun).
  eapply documents_dom; [exact Hrun | apply default_data_dom].
Qed.

(** ** [extract_first_page] *)

Lemma extract_first_page_total file_content :
  extract_first_page file_content =
  Return match _extract_try file_content with
         | Return t => t
         | Raise _ => None
         end.
Proof.
  unfold extract_first_page, run_in_executor, _extract.
  destruct (_extract_try file_content) as [t|e]; simpl; [done|].
  by destruct (is_ImportError e).
Qed.

Lemma process_document_read file metadata_str token file_content :
  read file = Return file_content →
  process_document file metadata_str token =
  try_except
    (do metadata_dict <- json_loads metadata_str ;;
     do r <- gather (process_invoice file_content (filename file))
                    (extract_first_page file_content) ;;
     mk_JSONResponse
       {| r_filename := filename file;
          extracted_data := fst r;
          thumbnail := snd r;
          metadata := metadata_dict |}
       response_headers)
    (fun e => Raise (HTTPException 500 (str_exn e))).
Proof. unfold process_document. by intros ->. Qed.

Lemma process_invoice_Raise file_content fname e :
  analyze file_content = Raise e →
  process_invoice file_content fname = Raise (HTTPException 500 (str_exn e)).
Proof. unfold process_invoice. by intros ->. Qed.

(** ** The extraction adapter *)

(** C1: whatever the recognition result, a mapping returned by
    [process_invoice] has exactly the four keys 'Document Type',
    'PV Number', 'Supplier or Company' and 'Date Prepared'; and on every
    result the remap can walk, [process_invoice] does return one. *)
Theorem extracted_data_keys file_content fname res :
  analyze file_content = Return res →
  (∀ data, process_invoice file_content fname = Return data → dom data = output_keys) ∧
  (well_shaped res = true →
   ∃ data, process_invoice file_content fname = Return data ∧ dom data = output_keys).
Proof.
  intros Hres. split.
  - intros data. apply process_invoice_keys.
  - intros Hws. destruct (process_invoice_returns _ fname _ Hres Hws) as (data & Hdata).
    exists data. split; [done|]. by eapply process_invoice_keys.
Qed.

(** C2: for a mapped source field of the recognition result (the one
    the output entry is taken from), the output value is the typed
    string if there is one; else the typed date rendered as a string;
    else the raw content; else null; and the output confidence is the
    confidence of the source field. *)
Theorem value_priority_and_confidence
    file_content fname res pre document post flds api display field data :
  analyze file_content = Return res →
  documents res = Attr (pre ++ document :: post)%list →
  fields document = Some flds →
  flds !! api = Some field →
  forallb (lacks api) post = true →
  (api, display) ∈ field_mapping →
  process_invoice file_content fname = Return data →
  ∃ v c,
    data !! display = Some {| value := v; f_confidence := c |} ∧
    confidence field = match c with Some x => Attr x | None => AttrNone end ∧
    (∀ s, value_string field = Attr s → v = Some s) ∧
    (present (value_string field) = false →
     ∀ d, value_date field = Attr d → v = Some (str_date d)) ∧
    (present (value_string field) = false →
     present (value_date field) = false →
     ∀ t, content field = Attr t → v = Some t) ∧
    (present (value_string field) = false →
     present (value_date field) = false →
     present (content field) = false → v = None).
Proof.
  intros Hres Hdocs Hflds Hfield Hpost Hin Hdata.
  apply process_invoice_Return in Hdata as (res' & Hres' & Hrun).
  rewrite Hres in Hres'. injection Hres' as <-.
  unfold visited in Hrun. rewrite Hdocs in Hrun.
  destruct (documents_last _ _ _ _ _ _ _ _ _ Hrun Hin Hflds Hfield Hpost)
    as (c & Hc & Hent).
  exists (field_value field), c. split; [done|].
  split.
  { unfold get_confidence in Hc. destruct (confidence field); [discriminate| |];
      by injection Hc as <-. }
  unfold field_value.
  repeat split.
  - by intros s ->.
  - intros Hs d ->. by destruct (value_string field).
  - intros Hs Hd t ->. by destruct (value_string field), (value_date field).
  - intros Hs Hd Ht.
    by destruct (value_string field), (value_date field), (content field).
Qed.

(** C3: when a mapped source field (InvoiceId, InvoiceDate or
    RemittanceAddressRecipient) is in no document of the recognition
    result, its output key ('PV Number', 'Date Prepared' or 'Supplier or
    Company') is present with value null and confidence 0.0. *)
Theorem absent_field_default file_content fname res api display data :
  analyze file_content = Return res →
  forallb (lacks api) (visited res) = true →
  (api, display) ∈ field_mapping →
  process_invoice file_content fname = Return data →
  data !! display = Some {| value := None; f_confidence := Some 0%float |}.
Proof.
  intros Hres Hlack Hin Hdata.
  apply process_invoice_Return in Hdata as (res' & Hres' & Hrun).
  rewrite Hres in Hres'. injection Hres' as <-.
  rewrite (documents_lacking _ _ _ _ _ Hrun Hin Hlack).
  unfold field_mapping in Hin.
  repeat (apply elem_of_cons in Hin as [Hin|Hin]; [injection Hin as -> ->; done|]).
  by apply elem_of_nil in Hin.
Qed.

(** C4: for every input and every recognition result, the output key
    'Document Type' maps to the value "Payable Voucher" with confidence
    1.0. *)
Theorem document_type_constant file_content fname data :
  process_invoice file_content fname = Return data →
  data !! "Document Type" =
  Some {| value := Some "Payable Voucher"; f_confidence := Some 1%float |}.
Proof.
  intros Hdata. apply process_invoice_Return in Hdata as (res & _ & Hrun).
  rewrite (documents_other _ _ _ "Document Type" Hrun); [done|].
  unfold field_mapping. simpl. rewrite !not_elem_of_cons.
  repeat split; [done..|apply not_elem_of_nil].
Qed.

(** C10: with several documents in the recognition result, a mapped
    output field takes its value and confidence from the last document
    that has the source field: later documents overwrite earlier ones,
    and documents without the field leave the entry as it was. *)
Theorem last_document_wins
    file_content fname res pre document post flds api display field data :
  analyze file_content = Return res →
  documents res = Attr (pre ++ document :: post)%list →
  fields document = Some flds →
  flds !! api = Some field →
  forallb (lacks api) post = true →
  (api, display) ∈ field_mapping →
  process_invoice file_content fname = Return data →
  ∃ c, get_confidence field = Return c ∧
       data !! display = Some {| value := field_value field; f_confidence := c |}.
Proof.
  intros Hres Hdocs Hflds Hfield Hpost Hin Hdata.
  apply process_invoice_Return in Hdata as (res' & Hres' & Hrun).
  rewrite Hres in Hres'. injection Hres' as <-.
  unfold visited in Hrun. rewrite Hdocs in Hrun.
  by eapply documents_last.
Qed.

(** ** The renderer adapter and the orchestrator *)

Lemma process_document_assembled file metadata_str token file_content m data t body :
  read file = Return file_content →
  json_loads metadata_str = Return m →
  process_invoice file_content (filename file) = Return data →
  extract_first_page file_content = Return t →
  render (filename file) data m = Return body →
  process_document file metadata_str token =
  Return {| status_code := 200;
            response_content :=
              {| r_filename := filename file;
                 extracted_data := data;
                 thumbnail := t;
                 metadata := m |};
            headers := response_headers |}.
Proof.
  intros Hread Hm Hdata Ht Hbody. rewrite (process_document_read _ _ _ _ Hread).
  rewrite Hm, Hdata, Ht. simpl. unfold mk_JSONResponse. simpl. by rewrite Hbody.
Qed.

Lemma carries_after (before text body : string) :
  carries text body = true → carries text (before ++ body) = true.
Proof.
  intros H. induction before as [|a before IH]; simpl; [done|].
  rewrite IH. apply orb_true_r.
Qed.

Lemma str_HTTPException_carries status detail :
  carries detail (str_HTTPException status detail) = true.
Proof.
  unfold str_HTTPException.
  do 2 apply carries_after. apply carries_refl.
Qed.

(** C5: [extract_first_page] raises nothing: it always returns, and it
    returns None when the rendering library is missing, when the upload
    cannot be opened, when the document has no page, and when any step of
    the rendering raises; the request then still answers 200 with the
    extracted data and a null thumbnail, provided the envelope
    serialises. *)
Theorem render_failure_degrades file_content :
  (∃ t, extract_first_page file_content = Return t) ∧
  (∀ e, import_fitz = Raise e → extract_first_page file_content = Return None) ∧
  (∀ fitz e, import_fitz = Return fitz →
     fitz_open fitz file_content "pdf" = Raise e →
     extract_first_page file_content = Return None) ∧
  (∀ fitz pdf, import_fitz = Return fitz →
     fitz_open fitz file_content "pdf" = Return pdf →
     len pdf = 0 →
     extract_first_page file_content = Return None) ∧
  (∀ e, _extract_try file_content = Raise e →
     extract_first_page file_content = Return None) ∧
  (∀ file metadata_str token m data body,
     read file = Return file_content →
     json_loads metadata_str = Return m →
     process_invoice file_content (filename file) = Return data →
     extract_first_page file_content = Return None →
     render (filename file) data m = Return body →
     process_document file metadata_str token =
       Return {| status_code := 200;
                 response_content :=
                   {| r_filename := filename file;
                      extracted_data := data;
                      thumbnail := None;
                      metadata := m |};
                 headers := response_headers |} ∧
     http_status (process_document file metadata_str token) = 200 ∧
     dom data = output_keys).
Proof.
  split; [rewrite extract_first_page_total; eauto|].
  split.
  { intros e He. rewrite extract_first_page_total. unfold _extract_try. by rewrite He. }
  split.
  { intros fitz e Hfitz He. rewrite extract_first_page_total. unfold _extract_try.
    rewrite Hfitz. simpl. by rewrite He. }
  split.
  { intros fitz pdf Hfitz Hpdf Hlen. rewrite extract_first_page_total.
    unfold _extract_try. rewrite Hfitz. simpl. rewrite Hpdf. simpl. by rewrite Hlen. }
  split.
  { intros e He. rewrite extract_first_page_total. by rewrite He. }
  intros file metadata_str token m data body Hread Hm Hdata Ht Hbody.
  rewrite (process_document_assembled _ _ token _ _ _ _ _ Hread Hm Hdata Ht Hbody).
  repeat split. by eapply process_invoice_keys.
Qed.

(** C6: when the metadata string is not valid JSON, or the recognition
    call raises, the endpoint answers 500, the detail of the error body
    carries the text of the error that was raised, and there is no
    response envelope.  On the recognition path the detail is [str] of the
    [HTTPException] raised by [process_invoice], the text after the
    status code. *)
Theorem upstream_failure_is_500 file metadata_str token file_content e :
  read file = Return file_content →
  json_loads metadata_str = Raise e ∨
  ((∃ m, json_loads metadata_str = Return m) ∧
   analyze file_content = Raise e) →
  http_status (process_document file metadata_str token) = 500 ∧
  (∃ detail,
     error_detail (process_document file metadata_str token) = Some detail ∧
     carries (str_exn e) detail = true) ∧
  envelope (process_document file metadata_str token) = None.
Proof.
  intros Hread Hfail. rewrite (process_document_read _ _ _ _ Hread).
  destruct Hfail as [Hjson | ((m & Hm) & Hcall)].
  - rewrite Hjson. simpl. repeat split; [].
    exists (str_exn e). split; [done | apply carries_refl].
  - rewrite Hm. simpl. rewrite (process_invoice_Raise _ _ _ Hcall). simpl.
    repeat split; [].
    exists (str_HTTPException 500 (str_exn e)).
    split; [done | apply str_HTTPException_carries].
Qed.

(** C8: when the metadata string parses as JSON, the metadata of the
    response envelope is the parsed value: every response carries it, and
    a response is produced whenever the upload is read, the extraction
    returns and the envelope serialises. *)
Theorem metadata_passed_through file metadata_str token m :
  json_loads metadata_str = Return m →
  (∀ resp, process_document file metadata_str token = Return resp →
           metadata (response_content resp) = m) ∧
  (∀ file_content data body,
     read file = Return file_content →
     process_invoice file_content (filename file) = Return data →
     render (filename file) data m = Return body →
     ∃ resp, process_document file metadata_str token = Return resp ∧
             metadata (response_content resp) = m).
Proof.
  intros Hm. split.
  - intros resp. unfold process_document. intros H.
    apply try_except_Return in H; [|done].
    apply bind_Return in H as (file_content & _ & H).
    rewrite Hm in H. simpl in H.
    apply bind_Return in H as (r & _ & H). unfold mk_JSONResponse in H.
    apply bind_Return in H as (body & _ & H). by injection H as <-.
  - intros file_content data body Hread Hdata Hbody.
    destruct (extract_first_page file_content) as [t|] eqn:Ht.
    + eexists. split; [by eapply process_document_assembled|done].
    + rewrite extract_first_page_total in Ht. discriminate.
Qed.

(** C9: two requests that differ in the token only get the same
    response. *)
Theorem token_is_ignored file metadata_str token token' :
  process_document file metadata_str token = process_document file metadata_str token'.
Proof. reflexivity. Qed.

(** C7: the extraction and the rendering do not overlap.  The body of
    [process_invoice] holds the event loop for the whole recognition, so
    the job of [extract_first_page] is handed to the executor only after
    it: the join ends after the sum of the two durations, which is later
    than the longer of the two as soon as both take time. *)
Theorem extraction_and_rendering_serialize (recognition rendering : nat) :
  join_latency recognition rendering = recognition + rendering ∧
  (0 < recognition → 0 < rendering →
   Nat.max recognition rendering < join_latency recognition rendering).
Proof.
  unfold join_latency, gather_timing, process_invoice_timing,
    extract_first_page_timing, blocking, offloaded.
  simpl. split; [lia|]. intros Hrec Hren. lia.
Qed.

End Properties.

(** ** Runs on the test doubles *)

Example no_documents_gives_defaults :
  @process_invoice (Mock.externals (Mock.returns Mock.no_documents) (Return Mock.one_page))
    Mock.pdf_bytes "voucher.pdf" = Return default_data.
Proof. reflexivity. Qed.

Example three_documents_remapped :
  (λ r, match r with Return data => map_to_list data | Raise _ => [] end)
    (@process_invoice Mock.several Mock.pdf_bytes "voucher.pdf") =
  [ ("Supplier or Company", {| value := Some "Acme Ltd"; f_confidence := Some 0.5%float |});
    ("Document Type", {| value := Some "Payable Voucher"; f_confidence := Some 1%float |});
    ("Date Prepared", {| value := Some "2024-03-09"; f_confidence := Some 0.75%float |});
    ("PV Number", {| value := None; f_confidence := None |}) ].
Proof. reflexivity. Qed.

Example page_rendered :
  @extract_first_page Mock.single Mock.pdf_bytes = Return (Some "iVBORw0KGgo=").
Proof. reflexivity. Qed.

Example library_missing :
  @extract_first_page (Mock.externals (Mock.returns Mock.one_document) Mock.not_installed)
    Mock.pdf_bytes = Return None.
Proof. reflexivity. Qed.

Example upload_corrupt :
  @extract_first_page (Mock.externals (Mock.returns Mock.one_document) (Return Mock.corrupt))
    Mock.pdf_bytes = Return None.
Proof. reflexivity. Qed.

Example bad_metadata :
  @process_document Mock.single Mock.upload "{" "s3cret" =
  Raise (HTTPException 500 "Expecting value: line 1 column 1 (char 0)").
Proof. reflexivity. Qed.

Example recognition_outage :
  @process_document Mock.outage Mock.upload "{}" "s3cret" =
  Raise (HTTPException 500 "500: (401) Access denied due to invalid subscription key").
Proof. reflexivity. Qed.

Example metadata_not_a_number :
  @json_loads Mock.single "NaN" = Return (JFloat nan) ∧
  @process_document Mock.single Mock.upload "NaN" "s3cret" =
  Raise (HTTPException 500 "Out of range float values are not JSON compliant").
Proof. split; reflexivity. Qed.

Example confidence_not_finite :
  (∃ data, @process_invoice Doubles.overconfident Mock.pdf_bytes "voucher.pdf"
           = Return data) ∧
  @process_document Doubles.overconfident Mock.upload "{}" "s3cret" =
  Raise (HTTPException 500 "Out of range float values are not JSON compliant").
Proof. split; [eexists|]; reflexivity. Qed.

Example both_await_overlap (a b : nat) :
  done_at (gather_timing (offloaded a) (offloaded b) 0) = Nat.max a b.
Proof. unfold gather_timing, offloaded. simpl. lia. Qed.

Example fields_missing :
  @process_document
    (Mock.externals (Mock.returns {| documents := Attr [ {| fields := None |} ] |})
       (Return Mock.one_page))
    Mock.upload "{}" "s3cret" =
  Raise (HTTPException 500 "500: 'NoneType' object is not iterable").
Proof. reflexivity. Qed.

(** ** The properties on the test doubles *)

Lemma extracted_data_keys_witness :
  @analyze Mock.several Mock.pdf_bytes = Return Mock.three_documents ∧
  well_shaped Mock.three_documents = true ∧
  ∃ data, @process_invoice Mock.several Mock.pdf_bytes "voucher.pdf" = Return data ∧
          dom data = output_keys.
Proof.
  split; [reflexivity|]. split; [reflexivity|].
  destruct (@extracted_data_keys Mock.several Mock.pdf_bytes "voucher.pdf"
              Mock.three_documents) as [_ H]; [reflexivity|].
  apply H. reflexivity.
Defined.

Lemma value_priority_and_confidence_witness :
  ∃ data,
    @process_invoice Mock.single Mock.pdf_bytes "voucher.pdf" = Return data ∧
    ∃ v c,
      data !! "PV Number" = Some {| value := v; f_confidence := c |} ∧
      confidence Mock.invoice_id = match c with Some x => Attr x | None => AttrNone end ∧
      (∀ s, value_string Mock.invoice_id = Attr s → v = Some s) ∧
      (present (value_string Mock.invoice_id) = false →
       ∀ d, value_date Mock.invoice_id = Attr d → v = Some (Mock.iso_date d)) ∧
      (present (value_string Mock.invoice_id) = false →
       present (value_date Mock.invoice_id) = false →
       ∀ t, content Mock.invoice_id = Attr t → v = Some t) ∧
      (present (value_string Mock.invoice_id) = false →
       present (value_date Mock.invoice_id) = false →
       present (content Mock.invoice_id) = false → v = None).
Proof.
  eexists. split; [reflexivity|].
  eapply (@value_priority_and_confidence Mock.single Mock.pdf_bytes "voucher.pdf"
            Mock.one_document [] Mock.first_doc [] _ "InvoiceId" "PV Number"
            Mock.invoice_id);
    [reflexivity | reflexivity | reflexivity | reflexivity | reflexivity
    | apply list_elem_of_here | reflexivity].
Defined.

Lemma absent_field_default_witness :
  forallb (lacks "RemittanceAddressRecipient") (visited Mock.one_document) = true ∧
  ∃ data,
    @process_invoice Mock.single Mock.pdf_bytes "voucher.pdf" = Return data ∧
    data !! "Supplier or Company" = Some {| value := None; f_confidence := Some 0%float |}.
Proof.
  split; [reflexivity|]. eexists. split; [reflexivity|].
  apply (@absent_field_default Mock.single Mock.pdf_bytes "voucher.pdf"
           Mock.one_document "RemittanceAddressRecipient" "Supplier or Company");
    [reflexivity | reflexivity
    | apply list_elem_of_further, list_elem_of_further, list_elem_of_here
    | reflexivity].
Defined.

Lemma document_type_constant_witness :
  ∃ data,
    @process_invoice Mock.several Mock.pdf_bytes "voucher.pdf" = Return data ∧
    data !! "Document Type" =
    Some {| value := Some "Payable Voucher"; f_confidence := Some 1%float |}.
Proof.
  eexists. split; [reflexivity|].
  apply (@document_type_constant Mock.several Mock.pdf_bytes "voucher.pdf").
  reflexivity.
Defined.

Lemma last_document_wins_witness :
  documents Mock.three_documents =
    Attr ([Mock.first_doc] ++ Mock.second_doc :: [Mock.third_doc])%list ∧
  forallb (lacks "InvoiceId") [Mock.third_doc] = true ∧
  ∃ data,
    @process_invoice Mock.several Mock.pdf_bytes "voucher.pdf" = Return data ∧
    ∃ c, @get_confidence Mock.later_id = Return c ∧
         data !! "PV Number" =
         Some {| value := @field_value Mock.several Mock.later_id; f_confidence := c |}.
Proof.
  split; [reflexivity|]. split; [reflexivity|]. eexists. split; [reflexivity|].
  eapply (@last_document_wins Mock.several Mock.pdf_bytes "voucher.pdf"
            Mock.three_documents [Mock.first_doc] Mock.second_doc [Mock.third_doc]
            _ "InvoiceId" "PV Number" Mock.later_id);
    [reflexivity | reflexivity | reflexivity | reflexivity | reflexivity
    | apply list_elem_of_here | reflexivity].
Defined.

Lemma render_failure_degrades_witness :
  @extract_first_page Mock.blank_pdf Mock.pdf_bytes = Return None ∧
  ∃ data,
    @process_invoice Mock.blank_pdf Mock.pdf_bytes "voucher.pdf" = Return data ∧
    (∃ body, @render Mock.blank_pdf "voucher.pdf" data (JObj []) = Return body) ∧
    @process_document Mock.blank_pdf Mock.upload "{}" "s3cret" =
      Return {| status_code := 200;
                response_content :=
                  {| r_filename := "voucher.pdf";
                     extracted_data := data;
                     thumbnail := None;
                     metadata := JObj [] |};
                headers := response_headers |} ∧
    http_status (@process_document Mock.blank_pdf Mock.upload "{}" "s3cret") = 200 ∧
    dom data = output_keys.
Proof.
  destruct (@render_failure_degrades Mock.blank_pdf Mock.pdf_bytes)
    as (_ & _ & _ & Hzero & _ & Hrequest).
  assert (Hnone : @extract_first_page Mock.blank_pdf Mock.pdf_bytes = Return None).
  { eapply Hzero; reflexivity. }
  split; [exact Hnone|]. eexists. split; [reflexivity|].
  split; [eexists; reflexivity|].
  eapply (Hrequest Mock.upload "{}" "s3cret");
    [reflexivity | reflexivity | reflexivity | exact Hnone | reflexivity].
Defined.

Lemma upstream_failure_is_500_witness :
  @analyze Mock.outage Mock.pdf_bytes =
    Raise (PyError OtherException "(401) Access denied due to invalid subscription key") ∧
  http_status (@process_document Mock.outage Mock.upload "{}" "s3cret") = 500 ∧
  (∃ detail,
     error_detail (@process_document Mock.outage Mock.upload "{}" "s3cret") = Some detail ∧
     carries "(401) Access denied due to invalid subscription key" detail = true) ∧
  envelope (@process_document Mock.outage Mock.upload "{}" "s3cret") = None.
Proof.
  split; [reflexivity|].
  apply (@upstream_failure_is_500 Mock.outage Mock.upload "{}" "s3cret" Mock.pdf_bytes
           (PyError OtherException "(401) Access denied due to invalid subscription key"));
    [reflexivity|].
  right. split; [exists (JObj []); reflexivity | reflexivity].
Defined.

Lemma metadata_passed_through_witness :
  @json_loads Mock.single "[7, null]" = Return (JArr [JInt 7; JNull]) ∧
  ∃ resp,
    @process_document Mock.single Mock.upload "[7, null]" "s3cret" = Return resp ∧
    metadata (response_content resp) = JArr [JInt 7; JNull].
Proof.
  split; [reflexivity|].
  destruct (@metadata_passed_through Mock.single Mock.upload "[7, null]" "s3cret"
              (JArr [JInt 7; JNull])) as [_ H]; [reflexivity|].
  eapply H; reflexivity.
Defined.

Lemma extraction_and_rendering_serialize_witness :
  join_latency 3 2 = 5 ∧ Nat.max 3 2 < join_latency 3 2.
Proof.
  destruct (extraction_and_rendering_serialize 3 2) as [Hsum Hmore].
  split; [exact Hsum | apply Hmore; lia].
Defined.

(** * Further properties *)

Section Extraction.

Context `{Ext : Externals}.

(** ** When the extraction returns *)

Lemma process_fields_shape data document data' :
  process_fields data document = Return data' → well_shaped_document document = true.
Proof.
  unfold process_fields, well_shaped_document.
  destruct (fields document) as [flds|]; [|discriminate].
  unfold field_mapping. simpl. unfold process_field, get_confidence.
  intros H.
  repeat match goal with
  | |- context [flds !! ?k] => destruct (flds !! k) as [?fld|]; simpl in *
  | |- context [confidence ?f] => destruct (confidence f); simpl in *; try discriminate
  end; reflexivity.
Qed.

Lemma documents_shape docs data data' :
  for_each docs process_fields data = Return data' →
  forallb well_shaped_document docs = true.
Proof.
  revert data. induction docs as [|d docs IH]; intros data Hrun; simpl in *; [done|].
  apply bind_Return in Hrun as (mid & Hd & Hrest).
  rewrite (process_fields_shape _ _ _ Hd). simpl. by eapply IH.
Qed.

(** X1: [process_invoice] returns a mapping exactly on the recognition
    results in which every visited document has a field dictionary and
    every mapped field found has a [confidence] attribute. *)
Theorem process_invoice_returns_iff file_content fname res :
  analyze file_content = Return res →
  (∃ data, process_invoice file_content fname = Return data) ↔ well_shaped res = true.
Proof.
  intros Hres. split.
  - intros (data & Hdata).
    apply process_invoice_Return in Hdata as (res' & Hres' & Hrun).
    rewrite Hres in Hres'. injection Hres' as <-.
    by eapply documents_shape.
  - by apply process_invoice_returns.
Qed.

(** ** The mapping without the loops *)

Lemma last_field_split api docs :
  (last_field api docs = None ∧ forallb (lacks api) docs = true) ∨
  (∃ pre document post flds field,
     docs = (pre ++ document :: post)%list ∧
     fields document = Some flds ∧
     flds !! api = Some field ∧
     forallb (lacks api) post = true ∧
     last_field api docs = Some field).
Proof.
  induction docs as [|d docs IH]; simpl; [by left|].
  destruct IH as [[Hnone Hlack] | (pre & d' & post & flds & field & -> & Hflds & Hf & Hpost & Hlast)].
  - rewrite Hnone, Hlack. unfold lacks at 1.
    destruct (fields d) as [flds|] eqn:Hflds; [|by left].
    destruct (flds !! api) as [field|] eqn:Hf; [|by left].
    right. exists [], d, docs, flds, field. by rewrite Hflds.
  - right. exists (d :: pre), d', post, flds, field. by rewrite Hlast.
Qed.

Lemma documents_entry docs data' api display :
  for_each docs process_fields default_data = Return data' →
  (api, display) ∈ field_mapping →
  data' !! display = Some (entry_for api docs).
Proof.
  intros Hrun Hin. unfold entry_for.
  destruct (last_field_split api docs)
    as [[-> Hlack] | (pre & d & post & flds & field & Hdocs & Hflds & Hf & Hpost & ->)].
  - rewrite (documents_lacking _ _ _ _ _ Hrun Hin Hlack).
    unfold field_mapping in Hin.
    repeat (apply elem_of_cons in Hin as [Hin|Hin]; [injection Hin as -> ->; done|]).
    by apply elem_of_nil in Hin.
  - rewrite Hdocs in Hrun.
    destruct (documents_last _ _ _ _ _ _ _ _ _ Hrun Hin Hflds Hf Hpost) as (c & Hc & ->).
    unfold entry_of, get_confidence in *.
    destruct (confidence field); [discriminate| |]; by injection Hc as <-.
Qed.

Lemma documents_remapped docs data' :
  for_each docs process_fields default_data = Return data' → data' = remapped docs.
Proof.
  intros Hrun. apply map_eq. intros k. unfold remapped.
  destruct (decide (k = "Date Prepared")) as [->|Hk1].
  { rewrite lookup_insert_eq. apply (documents_entry _ _ "InvoiceDate"); [done|].
    apply list_elem_of_further, list_elem_of_here. }
  destruct (decide (k = "Supplier or Company")) as [->|Hk2].
  { rewrite lookup_insert_ne, lookup_insert_eq by done.
    apply (documents_entry _ _ "RemittanceAddressRecipient"); [done|].
    apply list_elem_of_further, list_elem_of_further, list_elem_of_here. }
  destruct (decide (k = "PV Number")) as [->|Hk3].
  { rewrite !lookup_insert_ne, lookup_insert_eq by done.
    apply (documents_entry _ _ "InvoiceId"); [done|]. apply list_elem_of_here. }
  rewrite (documents_other _ _ _ k Hrun).
  - unfold default_data.
    do 3 (rewrite lookup_insert_ne by congruence).
    symmetry. do 3 (rewrite lookup_insert_ne by congruence). reflexivity.
  - unfold field_mapping. simpl. rewrite !not_elem_of_cons.
    repeat split; [done..|apply not_elem_of_nil].
Qed.

(** X2: The mapping [process_invoice] returns is the constant 'Document
    Type' entry together with, under each of the three display names, the
    pair built from the last document that has the source field, or
    (null, 0.0) when no document has it. *)
Theorem process_invoice_closed_form file_content fname res data :
  analyze file_content = Return res →
  process_invoice file_content fname = Return data →
  data = remapped (visited res).
Proof.
  intros Hres Hdata.
  apply process_invoice_Return in Hdata as (res' & Hres' & Hrun).
  rewrite Hres in Hres'. injection Hres' as <-.
  by apply documents_remapped.
Qed.

End Extraction.

Section ExtractionFailures.

Context `{Ext : Externals}.

(** ** What the extraction reads *)

Lemma process_fields_view data document1 document2 :
  mapped_view document1 = mapped_view document2 →
  process_fields data document1 = process_fields data document2.
Proof.
  unfold mapped_view, process_fields.
  destruct (fields document1) as [flds1|], (fields document2) as [flds2|];
    try discriminate; [|done].
  unfold field_mapping. simpl. intros [= H1 H2 H3].
  unfold process_field. by rewrite H1, H2, H3.
Qed.

Lemma documents_view docs1 docs2 data :
  map mapped_view docs1 = map mapped_view docs2 →
  for_each docs1 process_fields data = for_each docs2 process_fields data.
Proof.
  revert docs2 data. induction docs1 as [|d1 docs1 IH]; intros [|d2 docs2] data;
    simpl; try discriminate; [done|].
  intros [= Hd Hdocs]. rewrite (process_fields_view _ _ _ Hd).
  destruct (process_fields data d2) as [mid|e]; simpl; [by apply IH | done].
Qed.

(** X3: The outcome of [process_invoice] depends on the recognition result
    only through the three mapped source fields of each document: two
    results that agree on them give the same mapping, or the same error,
    whatever else the documents hold and whatever the file name is. *)
Theorem mapped_fields_only file_content1 fname1 file_content2 fname2 res1 res2 :
  analyze file_content1 = Return res1 →
  analyze file_content2 = Return res2 →
  map mapped_view (visited res1) = map mapped_view (visited res2) →
  process_invoice file_content1 fname1 = process_invoice file_content2 fname2.
Proof.
  intros H1 H2 Hview.
  rewrite (process_invoice_analyzed _ _ _ H1), (process_invoice_analyzed _ _ _ H2).
  by rewrite (documents_view _ _ _ Hview).
Qed.

Lemma process_fields_blank data document :
  mapped_view document = Some [None; None; None] →
  process_fields data document = Return data.
Proof.
  unfold mapped_view, process_fields.
  destruct (fields document) as [flds|]; [|discriminate].
  unfold field_mapping. simpl. intros [= H1 H2 H3].
  unfold process_field. by rewrite H1, H2, H3.
Qed.

(** X4: A document that has a field dictionary but none of the three mapped
    fields is transparent: the outcome of [process_invoice] is the same
    with it and without it, wherever it stands among the documents. *)
Theorem blank_document_is_skipped
    file_content1 fname1 file_content2 fname2 res1 res2 pre document post :
  analyze file_content1 = Return res1 →
  analyze file_content2 = Return res2 →
  visited res1 = (pre ++ document :: post)%list →
  visited res2 = (pre ++ post)%list →
  mapped_view document = Some [None; None; None] →
  process_invoice file_content1 fname1 = process_invoice file_content2 fname2.
Proof.
  intros H1 H2 Hdocs1 Hdocs2 Hblank.
  rewrite (process_invoice_analyzed _ _ _ H1), (process_invoice_analyzed _ _ _ H2).
  rewrite Hdocs1, Hdocs2, !for_each_app.
  destruct (for_each pre process_fields default_data) as [mid|]; simpl; [|done].
  by rewrite (process_fields_blank _ _ Hblank).
Qed.

(** ** How the extraction fails *)

Lemma process_fields_Raise data document e :
  process_fields data document = Raise e →
  e = PyError TypeError "'NoneType' object is not iterable" ∨
  e = PyError AttributeError "'DocumentField' object has no attribute 'confidence'".
Proof.
  unfold process_fields. destruct (fields document) as [flds|]; [|intros [= <-]; by left].
  unfold field_mapping. simpl. unfold process_field, get_confidence.
  intros H. right.
  repeat match type of H with
  | context [flds !! ?k] => destruct (flds !! k) as [?fld|]; simpl in H
  | context [confidence ?f] => destruct (confidence f); simpl in H
  end; first [discriminate H | by injection H as <-].
Qed.

Lemma documents_Raise docs data e :
  for_each docs process_fields data = Raise e →
  e = PyError TypeError "'NoneType' object is not iterable" ∨
  e = PyError AttributeError "'DocumentField' object has no attribute 'confidence'".
Proof.
  revert data. induction docs as [|d docs IH]; intros data; simpl; [discriminate|].
  destruct (process_fields data d) as [mid|e'] eqn:Hd; simpl.
  - apply IH.
  - intros [= <-]. by eapply process_fields_Raise.
Qed.

(** X5: Whatever goes wrong in [process_invoice], what it raises is an
    [HTTPException] with status 500 whose detail is [str] of the original
    error: either the error of the recognition call, or, on a result the
    remap cannot walk, the [TypeError] of a document without a field
    dictionary or the [AttributeError] of a mapped field without a
    [confidence]. *)
Theorem process_invoice_failure file_content fname e :
  process_invoice file_content fname = Raise e →
  ∃ cause,
    e = HTTPException 500 (str_exn cause) ∧
    (analyze file_content = Raise cause ∨
     (∃ res, analyze file_content = Return res ∧ well_shaped res = false) ∧
     (cause = PyError TypeError "'NoneType' object is not iterable" ∨
      cause = PyError AttributeError
                "'DocumentField' object has no attribute 'confidence'")).
Proof.
  destruct (analyze file_content) as [res|cause] eqn:Hres.
  - rewrite (process_invoice_analyzed _ fname _ Hres).
    destruct (for_each (visited res) process_fields default_data) as [data|cause] eqn:Hrun;
      simpl; [discriminate|].
    intros [= <-]. exists cause. split; [done|]. right. split.
    + exists res. split; [done|].
      destruct (well_shaped res) eqn:Hws; [|done].
      destruct (documents_return _ default_data Hws) as (data & Hdata). congruence.
    + by eapply documents_Raise.
  - rewrite (process_invoice_Raise _ fname _ Hres). intros [= <-]. eauto.
Qed.

End ExtractionFailures.

Section Orchestration.

Context `{Ext : Externals}.

(** ** The thumbnail *)

(** X6: [extract_first_page] returns a thumbnail exactly when the library
    imports, the upload opens as a document with at least one page, page 0
    loads, renders at zoom 2.0 by 2.0 without alpha and encodes as PNG; the
    thumbnail is then the base64 text of those PNG bytes. *)
Theorem thumbnail_iff file_content t :
  extract_first_page file_content = Return (Some t) ↔
  ∃ fitz pdf page pix img_bytes,
    import_fitz = Return fitz ∧
    fitz_open fitz file_content "pdf" = Return pdf ∧
    len pdf ≠ 0 ∧
    getitem pdf 0 = Return page ∧
    get_pixmap page {| zoom_x := 2%float; zoom_y := 2%float |} false = Return pix ∧
    tobytes pix "png" = Return img_bytes ∧
    t = b64encode img_bytes.
Proof.
  rewrite extract_first_page_total. unfold _extract_try, zoom_factor. split.
  - destruct import_fitz as [fitz|] eqn:Hfitz; simpl; [|discriminate].
    destruct (fitz_open fitz file_content "pdf") as [pdf|] eqn:Hpdf; simpl; [|discriminate].
    destruct (Nat.eqb (len pdf) 0) eqn:Hlen; [discriminate|].
    apply Nat.eqb_neq in Hlen.
    destruct (getitem pdf 0) as [page|] eqn:Hpage; simpl; [|discriminate].
    destruct (get_pixmap page _ false) as [pix|] eqn:Hpix; simpl; [|discriminate].
    destruct (tobytes pix "png") as [img|] eqn:Himg; simpl; [|discriminate].
    intros [= <-]. by exists fitz, pdf, page, pix, img.
  - intros (fitz & pdf & page & pix & img & -> & Hpdf & Hlen & Hpage & Hpix & Himg & ->).
    simpl. rewrite Hpdf. simpl. apply Nat.eqb_neq in Hlen. rewrite Hlen.
    rewrite Hpage. simpl. rewrite Hpix. simpl. by rewrite Himg.
Qed.

(** ** The answers of the endpoint *)

(** X7: A response of the endpoint is the 200 envelope made of the name of
    the upload, the remapped fields of the recognition result, the
    thumbnail of the renderer (null when it failed) and the parsed
    metadata, under the three CORS headers. *)
Theorem response_determined file metadata_str token resp :
  process_document file metadata_str token = Return resp →
  ∃ file_content m res,
    read file = Return file_content ∧
    json_loads metadata_str = Return m ∧
    analyze file_content = Return res ∧
    resp = {| status_code := 200;
              response_content :=
                {| r_filename := filename file;
                   extracted_data := remapped (visited res);
                   thumbnail := rendered file_content;
                   metadata := m |};
              headers := [ ("Access-Control-Allow-Origin", "*");
                           ("Access-Control-Allow-Methods", "POST, OPTIONS");
                           ("Access-Control-Allow-Headers", "*") ] |}.
Proof.
  unfold process_document. intros H. apply try_except_Return in H; [|done].
  apply bind_Return in H as (file_content & Hread & H).
  apply bind_Return in H as (m & Hm & H).
  apply bind_Return in H as ([data t] & Hgather & H).
  unfold mk_JSONResponse in H. apply bind_Return in H as (body & _ & H).
  injection H as <-. unfold gather in Hgather.
  apply bind_Return in Hgather as (data' & Hdata & Hgather).
  apply bind_Return in Hgather as (t' & Ht & Hgather).
  injection Hgather as -> ->.
  apply process_invoice_Return in Hdata as (res & Hres & Hrun).
  rewrite extract_first_page_total in Ht. injection Ht as <-.
  exists file_content, m, res. repeat split; try done.
  simpl. by rewrite (documents_remapped _ _ Hrun).
Qed.

(** X8: Every failure of the endpoint is an [HTTPException] with status 500,
    and its detail is [str] of the first thing that went wrong: the error
    of reading the upload, else the error of parsing the metadata, else
    the exception raised by [process_invoice], else the error of
    serialising the envelope. *)
Theorem process_document_failure file metadata_str token e :
  process_document file metadata_str token = Raise e →
  ∃ cause,
    e = HTTPException 500 (str_exn cause) ∧
    (read file = Raise cause ∨
     ∃ file_content,
       read file = Return file_content ∧
       (json_loads metadata_str = Raise cause ∨
        ∃ m,
          json_loads metadata_str = Return m ∧
          (process_invoice file_content (filename file) = Raise cause ∨
           ∃ data,
             process_invoice file_content (filename file) = Return data ∧
             render (filename file) data m = Raise cause))).
Proof.
  unfold process_document.
  destruct (read file) as [file_content|cause] eqn:Hread; simpl.
  2: { intros [= <-]. exists cause. split; [done | by left]. }
  destruct (json_loads metadata_str) as [m|cause] eqn:Hm; simpl.
  2: { intros [= <-]. exists cause. split; [done|]. right.
       exists file_content. split; [done | by left]. }
  destruct (process_invoice file_content (filename file)) as [data|cause] eqn:Hdata; simpl.
  - rewrite extract_first_page_total. simpl. unfold mk_JSONResponse. simpl.
    destruct (render (filename file) data m) as [body|cause] eqn:Hbody; simpl;
      [discriminate|].
    intros [= <-]. exists cause. split; [done|]. right.
    exists file_content. split; [done|]. right. exists m. split; [done|]. right.
    by exists data.
  - intros [= <-]. exists cause. split; [done|]. right.
    exists file_content. split; [done|]. right. exists m. split; [done | by left].
Qed.

End Orchestration.

(** X9: Replacing the rendering library and the encoder changes nothing in
    the answer of the endpoint but the thumbnail: same status, same error
    detail, and in the envelope the same file name, extracted data and
    metadata. *)
Theorem renderer_does_not_interfere (E : Externals) fitz encode file metadata_str token :
  let r := @process_document E file metadata_str token in
  let r' := @process_document (with_renderer E fitz encode) file metadata_str token in
  http_status r' = http_status r ∧
  error_detail r' = error_detail r ∧
  (r_filename <$> envelope r') = (r_filename <$> envelope r) ∧
  (extracted_data <$> envelope r') = (extracted_data <$> envelope r) ∧
  (metadata <$> envelope r') = (metadata <$> envelope r).
Proof.
  intros r r'. subst r r'. unfold process_document.
  destruct (read file) as [file_content|]; simpl; [|done].
  change (@json_loads (with_renderer E fitz encode)) with (@json_loads E).
  destruct (@json_loads E metadata_str) as [m|]; simpl; [|done].
  change (@process_invoice (with_renderer E fitz encode)) with (@process_invoice E).
  destruct (@process_invoice E file_content (filename file)) as [data|]; simpl; [|done].
  rewrite !extract_first_page_total. simpl. unfold mk_JSONResponse. simpl.
  change (@render (with_renderer E fitz encode)) with (@render E).
  by destruct (@render E (filename file) data m).
Qed.

(** ** Module start-up *)

Lemma truthy_false (v : option string) :
  Startup.truthy v = false ↔ v = None ∨ v = Some "".
Proof.
  destruct v as [[|a s]|]; simpl; split; intros H; try done; auto;
    destruct H as [H|H]; discriminate.
Qed.

(** X10: The import of the module, by the two required variables being set to
    a non-empty value or not: with both set the client is built from
    them; otherwise the [ValueError] names the variables that are unset or
    empty, AZURE_ENDPOINT first. *)
Theorem startup_table {C} (environ : gmap string string)
    (make_client : option string -> option string -> Result C) :
  Startup.startup environ make_client =
  match Startup.truthy (environ !! "AZURE_ENDPOINT"),
        Startup.truthy (environ !! "AZURE_KEY") with
  | true, true =>
    match make_client (environ !! "AZURE_ENDPOINT") (environ !! "AZURE_KEY") with
    | Return client => Startup.Started client
    | Raise e => Startup.InitFailed e
    end
  | false, true =>
    Startup.ValueError "Missing required environment variables: AZURE_ENDPOINT"
  | true, false =>
    Startup.ValueError "Missing required environment variables: AZURE_KEY"
  | false, false =>
    Startup.ValueError
      "Missing required environment variables: AZURE_ENDPOINT, AZURE_KEY"
  end.
Proof.
  unfold Startup.startup, Startup.missing_vars, Startup.required_env_vars, Startup.getenv.
  simpl.
  by destruct (Startup.truthy (environ !! "AZURE_ENDPOINT")),
              (Startup.truthy (environ !! "AZURE_KEY")).
Qed.

(** X11: The import stops with the [ValueError] exactly when a required
    variable is unset or set to the empty string. *)
Theorem startup_rejects_unset_or_empty {C} (environ : gmap string string)
    (make_client : option string -> option string -> Result C) :
  (∃ text, Startup.startup environ make_client = Startup.ValueError text) ↔
  ∃ var, var ∈ Startup.required_env_vars ∧
         (environ !! var = None ∨ environ !! var = Some "").
Proof.
  unfold Startup.startup, Startup.missing_vars, Startup.required_env_vars, Startup.getenv.
  simpl. split.
  - intros (text & H).
    destruct (Startup.truthy (environ !! "AZURE_ENDPOINT")) eqn:H1.
    + destruct (Startup.truthy (environ !! "AZURE_KEY")) eqn:H2; simpl in H.
      * by destruct (make_client _ _).
      * exists "AZURE_KEY". split; [|by apply truthy_false].
        apply list_elem_of_further, list_elem_of_here.
    + exists "AZURE_ENDPOINT". split; [apply list_elem_of_here | by apply truthy_false].
  - intros (var & Hin & Hvar). apply truthy_false in Hvar.
    apply elem_of_cons in Hin as [->|Hin].
    { rewrite Hvar. simpl. eauto. }
    apply elem_of_cons in Hin as [->|Hin]; [|by apply elem_of_nil in Hin].
    rewrite Hvar. simpl.
    destruct (Startup.truthy (environ !! "AZURE_ENDPOINT")); simpl; eauto.
Qed.

(** X12: When the import ends with a client, both variables are set and
    non-empty, and the client is the one built from their values. *)
Theorem client_built_from_environment {C} (environ : gmap string string)
    (make_client : option string -> option string -> Result C) (client : C) :
  Startup.startup environ make_client = Startup.Started client →
  ∃ endpoint key,
    environ !! "AZURE_ENDPOINT" = Some endpoint ∧ endpoint ≠ "" ∧
    environ !! "AZURE_KEY" = Some key ∧ key ≠ "" ∧
    make_client (Some endpoint) (Some key) = Return client.
Proof.
  unfold Startup.startup, Startup.missing_vars, Startup.required_env_vars, Startup.getenv.
  simpl.
  destruct (environ !! "AZURE_ENDPOINT") as [[|a endpoint]|]; simpl;
    destruct (environ !! "AZURE_KEY") as [[|b key]|]; simpl; try discriminate.
  destruct (make_client _ _) as [c|] eqn:Hc; [|discriminate].
  intros [= <-]. by exists (String a endpoint), (String b key).
Qed.

(** ** The further properties on the test doubles *)

Lemma process_invoice_returns_iff_witness :
  @analyze Doubles.shapeless_service Mock.pdf_bytes = Return Doubles.shapeless ∧
  well_shaped Doubles.shapeless = false ∧
  ¬ ∃ data, @process_invoice Doubles.shapeless_service Mock.pdf_bytes "voucher.pdf"
            = Return data.
Proof.
  split; [reflexivity|]. split; [reflexivity|].
  intros H.
  apply (@process_invoice_returns_iff Doubles.shapeless_service Mock.pdf_bytes
           "voucher.pdf" Doubles.shapeless) in H; [discriminate H | reflexivity].
Defined.

Lemma process_invoice_closed_form_witness :
  ∃ data,
    @process_invoice Mock.several Mock.pdf_bytes "voucher.pdf" = Return data ∧
    data = @remapped Mock.several (visited Mock.three_documents).
Proof.
  eexists. split; [reflexivity|].
  apply (@process_invoice_closed_form Mock.several Mock.pdf_bytes "voucher.pdf");
    reflexivity.
Defined.

Lemma mapped_fields_only_witness :
  map mapped_view (visited Mock.one_document) = map mapped_view (visited Doubles.trimmed) ∧
  @process_invoice Doubles.two_answers Mock.pdf_bytes "voucher.pdf" =
  @process_invoice Doubles.two_answers [] "copy.pdf".
Proof.
  split; [reflexivity|].
  apply (@mapped_fields_only Doubles.two_answers Mock.pdf_bytes "voucher.pdf" [] "copy.pdf"
           Mock.one_document Doubles.trimmed); reflexivity.
Defined.

Lemma process_invoice_failure_witness :
  @process_invoice Doubles.shapeless_service Mock.pdf_bytes "voucher.pdf" =
    Raise (HTTPException 500 "'NoneType' object is not iterable") ∧
  ∃ cause,
    HTTPException 500 "'NoneType' object is not iterable" =
      HTTPException 500 (str_exn cause) ∧
    (@analyze Doubles.shapeless_service Mock.pdf_bytes = Raise cause ∨
     (∃ res, @analyze Doubles.shapeless_service Mock.pdf_bytes = Return res ∧
             well_shaped res = false) ∧
     (cause = PyError TypeError "'NoneType' object is not iterable" ∨
      cause = PyError AttributeError
                "'DocumentField' object has no attribute 'confidence'")).
Proof.
  split; [reflexivity|].
  apply (@process_invoice_failure Doubles.shapeless_service Mock.pdf_bytes "voucher.pdf").
  reflexivity.
Defined.

Lemma response_determined_witness :
  ∃ resp,
    @process_document Mock.single Mock.upload "{}" "s3cret" = Return resp ∧
    ∃ file_content m res,
      read Mock.upload = Return file_content ∧
      @json_loads Mock.single "{}" = Return m ∧
      @analyze Mock.single file_content = Return res ∧
      resp = {| status_code := 200;
                response_content :=
                  {| r_filename := "voucher.pdf";
                     extracted_data := @remapped Mock.single (visited res);
                     thumbnail := @rendered Mock.single file_content;
                     metadata := m |};
                headers := [ ("Access-Control-Allow-Origin", "*");
                             ("Access-Control-Allow-Methods", "POST, OPTIONS");
                             ("Access-Control-Allow-Headers", "*") ] |}.
Proof.
  eexists. split; [reflexivity|].
  apply (@response_determined Mock.single Mock.upload "{}" "s3cret"). reflexivity.
Defined.

Lemma process_document_failure_witness :
  @process_document Mock.single Doubles.unreadable "{}" "s3cret" =
    Raise (HTTPException 500 "client disconnected") ∧
  ∃ cause,
    HTTPException 500 "client disconnected" =
      HTTPException 500 (str_exn cause) ∧
    (read Doubles.unreadable = Raise cause ∨
     ∃ file_content,
       read Doubles.unreadable = Return file_content ∧
       (@json_loads Mock.single "{}" = Raise cause ∨
        ∃ m,
          @json_loads Mock.single "{}" = Return m ∧
          (@process_invoice Mock.single file_content "voucher.pdf" = Raise cause ∨
           ∃ data,
             @process_invoice Mock.single file_content "voucher.pdf" = Return data ∧
             @render Mock.single "voucher.pdf" data m = Raise cause))).
Proof.
  split; [reflexivity|].
  apply (@process_document_failure Mock.single Doubles.unreadable "{}" "s3cret").
  reflexivity.
Defined.

Lemma client_built_from_environment_witness :
  Startup.startup Doubles.environ Doubles.make_client =
    Startup.Started (Some "https://example.cognitiveservices.azure.com/",
                     Some "0123456789abcdef") ∧
  ∃ endpoint key,
    Doubles.environ !! "AZURE_ENDPOINT" = Some endpoint ∧ endpoint ≠ "" ∧
    Doubles.environ !! "AZURE_KEY" = Some key ∧ key ≠ "" ∧
    Doubles.make_client (Some endpoint) (Some key) =
      Return (Some "https://example.cognitiveservices.azure.com/",
              Some "0123456789abcdef").
Proof.
  split; [reflexivity|].
  apply (client_built_from_environment Doubles.environ Doubles.make_client).
  reflexivity.
Defined.

Lemma blank_document_is_skipped_witness :
  visited Doubles.with_cover_sheet =
    ([Mock.first_doc] ++ Doubles.cover_sheet :: [Mock.second_doc])%list ∧
  mapped_view Doubles.cover_sheet = Some [None; None; None] ∧
  @process_invoice Doubles.cover_sheet_service Mock.pdf_bytes "voucher.pdf" =
  @process_invoice Doubles.cover_sheet_service [] "voucher.pdf".
Proof.
  split; [reflexivity|]. split; [reflexivity|].
  apply (@blank_document_is_skipped Doubles.cover_sheet_service
           Mock.pdf_bytes "voucher.pdf" [] "voucher.pdf"
           Doubles.with_cover_sheet Doubles.without_cover_sheet
           [Mock.first_doc] Doubles.cover_sheet [Mock.second_doc]); reflexivity.
Defined.
